(** * Web scraping MCP server (servers/mcp-server-web-python/src/main.py)

    A shallow embedding of [WebMCPServer]: the tool catalogue, the
    dispatcher [handle_call_tool] and the three handlers [fetch_url],
    [extract_links] and [extract_text], followed by the properties of
    the dispatcher and of the handlers.

    Conventions.
    - A Python [str] is a Rocq [string]; one character of the model
      stands for one character of the Python string.
    - [Dict[str, Any]] is a [gmap string value].
    - A Python computation that may raise is a [result]; the handlers
      run in the monad [M], which threads the log of the calls made to
      the HTTP client and to the HTML parser.
    - httpx, BeautifulSoup's parser, text extraction and CSS selection,
      [urllib.parse.urljoin] and [json.dumps] are not part of the
      program: they are the fields of a [Library] record over which
      every definition and theorem is parameterised. *)

From Stdlib Require Import ZArith String Ascii List Bool Lia PrimFloat.
From stdpp Require Import base option list strings pretty gmap.

Set Warnings "-register-all".

Local Open Scope string_scope.
Local Open Scope Z_scope.

(** ** Strings *)

Module Str.

(** [sub in s] *)
Fixpoint contains (sub s : string) : bool :=
  String.prefix sub s ||
  match s with
  | EmptyString => false
  | String _ s' => contains sub s'
  end.

(** [s[:n]] *)
Fixpoint take (n : nat) (s : string) : string :=
  match n, s with
  | O, _ => EmptyString
  | S _, EmptyString => EmptyString
  | S n', String c s' => String c (take n' s')
  end.


(** [sep.join(l)] *)
Definition join (sep : string) (l : list string) : string :=
  String.concat sep l.

(** ["\n"] *)
Definition newline : string := String (ascii_of_nat 10) EmptyString.

(** [repr(s)] for a string without quotes, backslashes or
    non-printable characters, which is what the keys looked up by the
    handlers are. *)
Definition repr (s : string) : string := "'" ++ s ++ "'".

End Str.

(** ** Values of type [Any] received in an argument mapping *)

Inductive value : Type :=
| VNone
| VBool (b : bool)
| VInt (z : Z)
| VFloat (f : float)
| VStr (s : string)
| VList (l : list value)
| VDict (d : list (string * value)).

(** Truth value of an object, as tested by [if selector:]. *)
Definition truthy (v : value) : bool :=
  match v with
  | VNone => false
  | VBool b => b
  | VInt z => negb (z =? 0)
  | VFloat f => negb (PrimFloat.eqb f PrimFloat.zero)
  | VStr s => negb (String.eqb s "")
  | VList l => match l with [] => false | _ => true end
  | VDict d => match d with [] => false | _ => true end
  end.

(** ** Exceptions *)

(** Whether an exception class derives from [Exception], or from
    [BaseException] only ([asyncio.CancelledError], [KeyboardInterrupt],
    [SystemExit]). *)
Inductive exn_class : Type := DerivesException | BaseExceptionOnly.

Inductive exn : Type :=
| KeyError (key : string)
| ValueError (msg : string)
| LibraryError (cls : exn_class) (msg : string).

(** [isinstance(e, Exception)] *)
Definition is_Exception (e : exn) : bool :=
  match e with
  | KeyError _ | ValueError _ => true
  | LibraryError DerivesException _ => true
  | LibraryError BaseExceptionOnly _ => false
  end.

(** [str(e)] *)
Definition exn_str (e : exn) : string :=
  match e with
  | KeyError k => Str.repr k
  | ValueError m => m
  | LibraryError _ m => m
  end.

Inductive result (A : Type) : Type :=
| Ok (a : A)
| Raise (e : exn).
Arguments Ok {A} a.
Arguments Raise {A} e.

(** ** Protocol types (mcp.types) *)

Record TextContent := mkTextContent { type_ : string; text : string }.

Record CallToolResult := mkCallToolResult {
  content : list TextContent;
  isError : bool
}.

(** [CallToolResult(content=[TextContent(type="text", text=t)])];
    [isError] defaults to [False]. *)
Definition text_result (t : string) : CallToolResult :=
  {| content := [mkTextContent "text" t]; isError := false |}.

Definition error_result (t : string) : CallToolResult :=
  {| content := [mkTextContent "text" t]; isError := true |}.

(** ** JSON documents handed to [json.dumps] *)

Inductive json : Type :=
| JNull
| JInt (z : Z)
| JStr (s : string)
| JList (l : list json)
| JObj (fields : list (string * json)).

(** A [dict] literal keeps its keys in the order they are written. *)
Fixpoint dict_get (k : string) (d : list (string * json)) : option json :=
  match d with
  | [] => None
  | (k', v) :: d' => if String.eqb k k' then Some v else dict_get k d'
  end.

Definition dict_keys (d : list (string * json)) : list string := map fst d.

(** A Python value that is either a string or [None]. *)
Definition json_of_optional_str (o : option string) : json :=
  match o with
  | Some s => JStr s
  | None => JNull
  end.

(** A tool of the catalogue. The entries of [properties] are
    [{"type": ..., "description": ...}], with a ["default"] for some. *)
Record Property := mkProperty {
  prop_type : string;
  prop_description : string;
  prop_default : option json
}.

Record InputSchema := mkInputSchema {
  schema_type : string;
  properties : list (string * Property);
  required : list string
}.

Record Tool := mkTool {
  name : string;
  description : string;
  inputSchema : InputSchema
}.

Record ListToolsResult := mkListToolsResult { tools : list Tool }.

(** ** Parse trees (bs4) *)

(** What the parser builds: strings, comments and tags; the
    [BeautifulSoup] object itself is the tag named ["[document]"]. The
    attributes of a tag are a [dict]. *)
Inductive node : Type :=
| NavigableString (s : string)
| Comment (s : string)
| Tag (tag_name : string) (attrs : gmap string string) (contents : list node).

(** [tag.descendants]: every node below the tag, in document order. *)
Fixpoint descendants (n : node) : list node :=
  match n with
  | Tag _ _ cs =>
      (fix go (l : list node) : list node :=
         match l with
         | [] => []
         | c :: l' => c :: descendants c ++ go l'
         end) cs
  | _ => []
  end.

Definition is_tag_named (nm : string) (n : node) : bool :=
  match n with
  | Tag nm' _ _ => String.eqb nm nm'
  | _ => false
  end.

(** [tag.attrs.get(k)] *)
Definition attr_get (k : string) (n : node) : option string :=
  match n with
  | Tag _ a _ => a !! k
  | _ => None
  end.

Definition has_attr (k : string) (n : node) : bool :=
  match attr_get k n with
  | Some _ => true
  | None => false
  end.

(** [soup.find(nm)]: the first tag of that name, or [None]. *)
Definition find (nm : string) (soup : node) : option node :=
  List.find (is_tag_named nm) (descendants soup).

(** [soup.title] *)
Definition title (soup : node) : option node := find "title" soup.

(** [soup.find_all(nm, href=True)]: the tags of that name that carry an
    [href] attribute, in document order. *)
Definition find_all_href (nm : string) (soup : node) : list node :=
  filter (λ n, is_tag_named nm n ∧ has_attr "href" n) (descendants soup).

(** [tag.string]: the single string below the tag, [None] when a tag on
    the way down has no child or more than one. *)
Fixpoint string_ (n : node) : option string :=
  match n with
  | NavigableString s => Some s
  | Comment s => Some s
  | Tag _ _ [c] => string_ c
  | Tag _ _ _ => None
  end.

(** A node has the single string [s] below it: it is that string, or it
    is a tag with exactly one child, which has the single string [s]
    below it. *)
Inductive has_single_string : node → string → Prop :=
| single_NavigableString (s : string) :
    has_single_string (NavigableString s) s
| single_Comment (s : string) :
    has_single_string (Comment s) s
| single_Tag (nm : string) (attrs : gmap string string) (c : node) (s : string) :
    has_single_string c s → has_single_string (Tag nm attrs [c]) s.

(** ** The libraries the server calls *)

(** [httpx.Response], as far as the handlers read it. Header names are
    case-insensitive in httpx; the map is keyed by the lower-case name. *)
Record Response := mkResponse {
  resp_url : string;
  resp_status_code : Z;
  resp_headers : gmap string string;
  resp_text : string
}.

(** How the HTTP client was built: [httpx.AsyncClient()] or
    [httpx.AsyncClient(timeout=v)]. *)
Inductive timeout_cfg : Type :=
| DefaultTimeout
| Timeout (v : value).

Record AsyncClient := mkAsyncClient { client_timeout : timeout_cfg }.

Record Library := mkLibrary {
  (** [httpx.AsyncClient(...)] may reject its configuration. *)
  client_init : timeout_cfg → result unit;
  (** the outcome of [client.get(url)] on a client so configured *)
  http_get : timeout_cfg → value → result Response;
  (** [response.raise_for_status()] *)
  http_raise_for_status : Response → result unit;
  (** [BeautifulSoup(markup, "html.parser")] *)
  html_parser : value → result node;
  (** [tag.get_text(strip=True)] *)
  get_text : node → string;
  (** [tag.select(selector)], the matches in document order *)
  select : node → value → result (list node);
  (** [urllib.parse.urljoin(base, url)] *)
  urljoin : value → string → result string;
  (** [json.dumps(obj, indent=2)] *)
  json_dumps : json → string
}.

(** [response.headers.get(k, dflt)] *)
Definition headers_get (response : Response) (k dflt : string) : string :=
  default dflt (resp_headers response !! k).

(** A client built with configuration [t] gets [response] from [url],
    and the status of the response is not an error. *)
Definition get_succeeds (lib : Library) (t : timeout_cfg) (url : value)
    (response : Response) : Prop :=
  client_init lib t = Ok tt
  ∧ http_get lib t url = Ok response
  ∧ http_raise_for_status lib response = Ok tt.

(** The record of an anchor: its text, its [href] and the [href]
    joined to the base. *)
Definition is_record_of (lib : Library) (base_url : value) (a : node) (r : json) : Prop :=
  ∃ href absolute_url : string,
    attr_get "href" a = Some href
    ∧ urljoin lib base_url href = Ok absolute_url
    ∧ r = JObj [ ("text", JStr (get_text lib a));
                 ("href", JStr href);
                 ("absolute_url", JStr absolute_url) ].

(** Every [href] of the tags joins to the base. *)
Definition joins (lib : Library) (base_url : value) (found : list node) : Prop :=
  Forall (λ a, ∀ href, attr_get "href" a = Some href →
                 ∃ absolute_url, urljoin lib base_url href = Ok absolute_url) found.

(** ** The monad of the handlers *)

Inductive event : Type :=
| EvGet (t : timeout_cfg) (url : value)
| EvParse (markup : value).

Definition trace : Type := list event.

Definition M (A : Type) : Type := trace → result A * trace.

#[global] Instance M_ret : MRet M := λ A a tr, (Ok a, tr).

#[global] Instance M_bind : MBind M := λ A B k m tr,
  match m tr with
  | (Ok a, tr') => k a tr'
  | (Raise e, tr') => (Raise e, tr')
  end.

Definition raise {A : Type} (e : exn) : M A := λ tr, (Raise e, tr).

Definition lift {A : Type} (r : result A) : M A := λ tr, (r, tr).

Definition emit (ev : event) : M unit := λ tr, (Ok tt, (tr ++ [ev])%list).

(** [try: body / except Exception as e: handler(e)]: an exception that
    is not an instance of [Exception] passes through. *)
Definition try_except_Exception {A : Type} (body : M A) (handler : exn → M A) : M A :=
  λ tr,
    match body tr with
    | (Ok a, tr') => (Ok a, tr')
    | (Raise e, tr') =>
        if is_Exception e then handler e tr' else (Raise e, tr')
    end.

(** [d[k]] *)
Definition getitem (d : gmap string value) (k : string) : M value :=
  match d !! k with
  | Some v => mret v
  | None => raise (KeyError k)
  end.

(** [d.get(k, dflt)] *)
Definition get_default (d : gmap string value) (k : string) (dflt : value) : value :=
  default dflt (d !! k).

(** [tag[k]] *)
Definition tag_getitem (n : node) (k : string) : M string :=
  match attr_get k n with
  | Some v => mret v
  | None => raise (KeyError k)
  end.

(** [arguments or {}] *)
Definition or_empty (arguments : option (gmap string value)) : gmap string value :=
  match arguments with
  | Some d => if decide (d = ∅) then ∅ else d
  | None => ∅
  end.

(** The GET requests of a trace, in the order they were issued. *)
Fixpoint gets (tr : trace) : list (timeout_cfg * value) :=
  match tr with
  | [] => []
  | EvGet t u :: tr' => (t, u) :: gets tr'
  | EvParse _ :: tr' => gets tr'
  end.

(** The markups of a trace handed to the parser, in order. *)
Fixpoint parses (tr : trace) : list value :=
  match tr with
  | [] => []
  | EvGet _ _ :: tr' => parses tr'
  | EvParse m :: tr' => m :: parses tr'
  end.

(** [e] is what some call into a library raises. *)
Definition raised_by_library (lib : Library) (e : exn) : Prop :=
  (∃ t, client_init lib t = Raise e)
  ∨ (∃ t url, http_get lib t url = Raise e)
  ∨ (∃ response, http_raise_for_status lib response = Raise e)
  ∨ (∃ markup, html_parser lib markup = Raise e)
  ∨ (∃ soup selector, select lib soup selector = Raise e)
  ∨ (∃ base url, urljoin lib base url = Raise e).

(** The client is built with configuration [t], and either the GET of
    [url] raises [e] or [raise_for_status] raises [e] on the response. *)
Definition request_fails (lib : Library) (t : timeout_cfg) (url : value)
    (e : exn) : Prop :=
  client_init lib t = Ok tt
  ∧ (http_get lib t url = Raise e
     ∨ ∃ response, http_get lib t url = Ok response
                   ∧ http_raise_for_status lib response = Raise e).

(** Every exception that a library raises derives from [Exception]. *)
Definition raises_Exception_only (lib : Library) : Prop :=
  ∀ e, raised_by_library lib e → is_Exception e = true.

(** ** The server *)

(** [handle_list_tools] *)
Definition handle_list_tools : ListToolsResult :=
  {| tools :=
       [ mkTool "fetch_url" "Fetch content from a URL"
           (mkInputSchema "object"
              [ ("url", mkProperty "string" "The URL to fetch" None);
                ("timeout", mkProperty "number" "Request timeout in seconds"
                              (Some (JInt 30))) ]
              ["url"]);
         mkTool "extract_links" "Extract all links from a webpage"
           (mkInputSchema "object"
              [ ("url", mkProperty "string" "The URL to extract links from" None);
                ("base_url", mkProperty "string" "Base URL for relative links" None) ]
              ["url"]);
         mkTool "extract_text" "Extract clean text content from HTML"
           (mkInputSchema "object"
              [ ("html", mkProperty "string" "HTML content to extract text from" None);
                ("selector", mkProperty "string"
                               "CSS selector to target specific elements" None) ]
              ["html"]) ] |}.

Section Server.

Context (lib : Library).

(** [httpx.AsyncClient(...)] *)
Definition new_client (t : timeout_cfg) : M AsyncClient :=
  _ ← lift (client_init lib t);
  mret (mkAsyncClient t).

(** [await client.get(url)] *)
Definition client_get (client : AsyncClient) (url : value) : M Response :=
  _ ← emit (EvGet (client_timeout client) url);
  lift (http_get lib (client_timeout client) url).

Definition raise_for_status (response : Response) : M unit :=
  lift (http_raise_for_status lib response).

Definition BeautifulSoup (markup : value) : M node :=
  _ ← emit (EvParse markup);
  lift (html_parser lib markup).

(** The [result] dict of [fetch_url] for an HTML response. *)
Definition html_fetch_result (response : Response) (content_type : string)
    (soup : node) : list (string * json) :=
  let title_ :=
    match title soup with
    | Some t => string_ t
    | None => Some "No title"
    end in
  [ ("url", JStr (resp_url response));
    ("status_code", JInt (resp_status_code response));
    ("content_type", JStr content_type);
    ("title", json_of_optional_str title_);
    ("content", JStr (resp_text response));
    ("text_content", JStr (Str.take 1000 (get_text lib soup) ++ "...")) ].

(** The [result] dict of [fetch_url] for any other response. *)
Definition plain_fetch_result (response : Response) (content_type : string)
    : list (string * json) :=
  [ ("url", JStr (resp_url response));
    ("status_code", JInt (resp_status_code response));
    ("content_type", JStr content_type);
    ("content", JStr (resp_text response)) ].

Definition fetch_url (args : gmap string value) : M CallToolResult :=
  url ← getitem args "url";
  let timeout := get_default args "timeout" (VInt 30) in
  client ← new_client (Timeout timeout);
  response ← client_get client url;
  _ ← raise_for_status response;
  let content_type := headers_get response "content-type" "" in
  result ←
    (if Str.contains "text/html" content_type then
       soup ← BeautifulSoup (VStr (resp_text response));
       mret (html_fetch_result response content_type soup)
     else
       mret (plain_fetch_result response content_type));
  mret (text_result (json_dumps lib (JObj result))).

(** One entry of [links]. *)
Definition link_record (text_ href absolute_url : string) : json :=
  JObj [ ("text", JStr text_); ("href", JStr href); ("absolute_url", JStr absolute_url) ].

(** The body of [for link in soup.find_all("a", href=True)], run over
    the tags found, [links] being the list built so far. *)
Fixpoint for_links (base_url : value) (found : list node) (links : list json)
    : M (list json) :=
  match found with
  | [] => mret links
  | link :: rest =>
      href ← tag_getitem link "href";
      absolute_url ← lift (urljoin lib base_url href);
      for_links base_url rest
        (links ++ [link_record (get_text lib link) href absolute_url])%list
  end.

Definition extract_links (args : gmap string value) : M CallToolResult :=
  url ← getitem args "url";
  let base_url := get_default args "base_url" url in
  client ← new_client DefaultTimeout;
  response ← client_get client url;
  _ ← raise_for_status response;
  soup ← BeautifulSoup (VStr (resp_text response));
  links ← for_links base_url (find_all_href "a" soup) [];
  mret (text_result (json_dumps lib (JList links))).

Definition extract_text (args : gmap string value) : M CallToolResult :=
  html ← getitem args "html";
  let selector := get_default args "selector" VNone in
  soup ← BeautifulSoup html;
  text_ ←
    (if truthy selector then
       elements ← lift (select lib soup selector);
       mret (Str.join Str.newline (map (get_text lib) elements))
     else
       mret (get_text lib soup));
  mret (text_result text_).

(** The body of the [try] of [handle_call_tool]. *)
Definition dispatch (name : string) (arguments : option (gmap string value))
    : M CallToolResult :=
  if String.eqb name "fetch_url" then fetch_url (or_empty arguments)
  else if String.eqb name "extract_links" then extract_links (or_empty arguments)
  else if String.eqb name "extract_text" then extract_text (or_empty arguments)
  else raise (ValueError ("Unknown tool: " ++ name)).

Definition handle_call_tool (name : string) (arguments : option (gmap string value))
    : M CallToolResult :=
  try_except_Exception (dispatch name arguments)
    (λ e, mret (error_result ("Error: " ++ exn_str e))).

End Server.

(** ** A small site, to run the server on *)

Module Site.

Definition quote : string := String (ascii_of_nat 34) "".

(** A compact rendering of a JSON document. *)
Fixpoint render (j : json) : string :=
  match j with
  | JNull => "null"
  | JInt z => pretty z
  | JStr s => quote ++ s ++ quote
  | JList l =>
      "[" ++ (fix go (l : list json) : string :=
                match l with
                | [] => ""
                | [x] => render x
                | x :: l' => render x ++ ", " ++ go l'
                end) l ++ "]"
  | JObj d =>
      "{" ++ (fix go (d : list (string * json)) : string :=
                match d with
                | [] => ""
                | [(k, v)] => quote ++ k ++ quote ++ ": " ++ render v
                | (k, v) :: d' => quote ++ k ++ quote ++ ": " ++ render v ++ ", " ++ go d'
                end) d ++ "}"
  end.

(** The text of the strings below a node. *)
Fixpoint all_text (n : node) : string :=
  match n with
  | NavigableString s => s
  | Comment _ => ""
  | Tag _ _ cs =>
      (fix go (l : list node) : string :=
         match l with
         | [] => ""
         | c :: l' => all_text c ++ go l'
         end) cs
  end.

Definition home_html : string :=
  "<html><head><title>Example</title></head><body><p>A</p><p>B</p><a href=/page>Link</a><a name=top>Top</a></body></html>".

Definition home_soup : node :=
  Tag "[document]" ∅
    [ Tag "html" ∅
        [ Tag "head" ∅ [ Tag "title" ∅ [ NavigableString "Example" ] ];
          Tag "body" ∅
            [ Tag "p" ∅ [ NavigableString "A" ];
              Tag "p" ∅ [ NavigableString "B" ];
              Tag "a" {[ "href" := "/page" ]} [ NavigableString "Link" ];
              Tag "a" {[ "name" := "top" ]} [ NavigableString "Top" ] ] ] ].

Definition empty_title_html : string :=
  "<html><head><title></title></head><body><p>A</p></body></html>".

Definition empty_title_soup : node :=
  Tag "[document]" ∅
    [ Tag "html" ∅
        [ Tag "head" ∅ [ Tag "title" ∅ [] ];
          Tag "body" ∅ [ Tag "p" ∅ [ NavigableString "A" ] ] ] ].

Definition data_json : string := "{}".

Definition html_headers : gmap string string :=
  {[ "content-type" := "text/html; charset=utf-8" ]}.

Definition json_headers : gmap string string :=
  {[ "content-type" := "application/json" ]}.

Definition connect_error : exn :=
  LibraryError DerivesException "[Errno -2] Name or service not known".

Definition serve (url : value) : result Response :=
  match url with
  | VStr u =>
      if String.eqb u "https://example.com" then
        Ok (mkResponse u 200 html_headers home_html)
      else if String.eqb u "https://example.com/empty-title" then
        Ok (mkResponse u 200 html_headers empty_title_html)
      else if String.eqb u "https://example.com/data.json" then
        Ok (mkResponse u 200 json_headers data_json)
      else Raise connect_error
  | _ => Raise (LibraryError DerivesException "Invalid type for url")
  end.

Definition check_status (response : Response) : result unit :=
  if (200 <=? resp_status_code response) && (resp_status_code response <? 300)
  then Ok tt
  else Raise (LibraryError DerivesException "HTTP status error").

Definition parse (markup : value) : result node :=
  match markup with
  | VStr m =>
      if String.eqb m home_html then Ok home_soup
      else if String.eqb m empty_title_html then Ok empty_title_soup
      else Ok (Tag "[document]" ∅ [ NavigableString m ])
  | _ => Raise (LibraryError DerivesException "object has no len()")
  end.

(** Selectors that are a tag name. *)
Definition select_by_name (soup : node) (selector : value) : result (list node) :=
  match selector with
  | VStr nm => Ok (List.filter (is_tag_named nm) (descendants soup))
  | _ => Raise (LibraryError DerivesException "Expected a selector")
  end.

(** Joining a path that starts at the root to the address of a host. *)
Definition join_root (base : value) (url : string) : result string :=
  match base with
  | VStr b => if String.prefix "/" url then Ok (b ++ url) else Ok url
  | _ => Raise (LibraryError DerivesException "Cannot mix str and non-str arguments")
  end.

Definition library : Library :=
  {| client_init := λ _, Ok tt;
     http_get := λ _ url, serve url;
     http_raise_for_status := check_status;
     html_parser := parse;
     get_text := all_text;
     select := select_by_name;
     urljoin := join_root;
     json_dumps := render |}.

(** The same site when the task that awaits the response is
    cancelled: [await client.get(url)] raises
    [asyncio.CancelledError], which derives from [BaseException]
    only. *)
Definition cancelled : Library :=
  {| client_init := λ _, Ok tt;
     http_get := λ _ _, Raise (LibraryError BaseExceptionOnly "");
     http_raise_for_status := check_status;
     html_parser := parse;
     get_text := all_text;
     select := select_by_name;
     urljoin := join_root;
     json_dumps := render |}.

(** A server that answers every request with a body and no header. *)
Definition bare : Library :=
  {| client_init := λ _, Ok tt;
     http_get := λ _ _, Ok (mkResponse "gopher://example.com" 200 ∅ "<p>A</p>");
     http_raise_for_status := check_status;
     html_parser := parse;
     get_text := all_text;
     select := select_by_name;
     urljoin := join_root;
     json_dumps := render |}.

(** A page with three links, the second of which has an [href] that
    [urljoin] rejects: the bracket opens an IPv6 address that is never
    closed, and [urljoin] raises [ValueError]. *)
Definition links_html : string :=
  "<html><body><a href='/one'>One</a><a href='http://[bad/'>Bad</a><a href='/two'>Two</a></body></html>".

Definition links_soup : node :=
  Tag "[document]" ∅
    [ Tag "html" ∅
        [ Tag "body" ∅
            [ Tag "a" {[ "href" := "/one" ]} [ NavigableString "One" ];
              Tag "a" {[ "href" := "http://[bad/" ]} [ NavigableString "Bad" ];
              Tag "a" {[ "href" := "/two" ]} [ NavigableString "Two" ] ] ] ].

Definition join_checked (base : value) (url : string) : result string :=
  if String.eqb url "http://[bad/" then Raise (ValueError "Invalid IPv6 URL")
  else join_root base url.

(** A server that answers every request with the page of three links. *)
Definition links_library : Library :=
  {| client_init := λ _, Ok tt;
     http_get := λ _ _, Ok (mkResponse "https://example.com/links" 200 html_headers links_html);
     http_raise_for_status := check_status;
     html_parser := λ _, Ok links_soup;
     get_text := all_text;
     select := select_by_name;
     urljoin := join_checked;
     json_dumps := render |}.

End Site.

(** * Properties *)

(** ** The monad *)

Section MonadFacts.

Context {A B : Type}.

Lemma bind_Ok (m : M A) (k : A → M B) tr a tr' :
  m tr = (Ok a, tr') → (m ≫= k) tr = k a tr'.
Proof. intros H. unfold mbind, M_bind. by rewrite H. Qed.

Lemma bind_Raise (m : M A) (k : A → M B) tr e tr' :
  m tr = (Raise e, tr') → (m ≫= k) tr = (Raise e, tr').
Proof. intros H. unfold mbind, M_bind. by rewrite H. Qed.

Lemma try_Ok (body : M A) handler tr a tr' :
  body tr = (Ok a, tr') → try_except_Exception body handler tr = (Ok a, tr').
Proof. intros H. unfold try_except_Exception. by rewrite H. Qed.

Lemma try_caught (body : M A) handler tr e tr' :
  body tr = (Raise e, tr') → is_Exception e = true →
  try_except_Exception body handler tr = handler e tr'.
Proof. intros H He. unfold try_except_Exception. by rewrite H, He. Qed.

Lemma try_uncaught (body : M A) handler tr e tr' :
  body tr = (Raise e, tr') → is_Exception e = false →
  try_except_Exception body handler tr = (Raise e, tr').
Proof. intros H He. unfold try_except_Exception. by rewrite H, He. Qed.

End MonadFacts.

Lemma getitem_Some d k v tr : d !! k = Some v → getitem d k tr = (Ok v, tr).
Proof. intros H. unfold getitem. by rewrite H. Qed.

Lemma getitem_None d k tr : d !! k = None → getitem d k tr = (Raise (KeyError k), tr).
Proof. intros H. unfold getitem. by rewrite H. Qed.

Lemma or_empty_None : or_empty None = ∅.
Proof. reflexivity. Qed.

Lemma or_empty_Some d : or_empty (Some d) = d.
Proof. unfold or_empty. by case_decide. Qed.

(** [None] and the empty mapping are one and the same argument. *)
Lemma or_empty_None_empty : or_empty None = or_empty (Some ∅).
Proof. by rewrite or_empty_Some. Qed.

(** ** The dispatcher *)

Section Dispatcher.

Context (lib : Library).

Lemma dispatch_unknown tool arguments tr :
  tool ∉ map name (tools handle_list_tools) →
  dispatch lib tool arguments tr = (Raise (ValueError ("Unknown tool: " ++ tool)), tr).
Proof.
  intros Hn. unfold dispatch. simpl in Hn.
  rewrite !not_elem_of_cons in Hn. destruct Hn as (H1 & H2 & H3 & _).
  apply String.eqb_neq in H1, H2, H3. by rewrite H1, H2, H3.
Qed.

(** A handler that does not find its required argument raises
    [KeyError] before it has called anything. *)
Lemma dispatch_missing tool t k arguments tr :
  t ∈ tools handle_list_tools → name t = tool → k ∈ required (inputSchema t) →
  or_empty arguments !! k = None →
  dispatch lib tool arguments tr = (Raise (KeyError k), tr).
Proof.
  intros Ht <- Hk Hnone. unfold handle_list_tools in Ht. simpl in Ht.
  repeat (apply elem_of_cons in Ht as [->|Ht]);
    [ | | | by apply elem_of_nil in Ht ];
    simpl in Hk; apply list_elem_of_singleton in Hk as ->;
    unfold dispatch; simpl;
    [ unfold fetch_url | unfold extract_links | unfold extract_text ];
    by erewrite bind_Raise by (by apply getitem_None).
Qed.

End Dispatcher.

(** ** Failures at the dispatcher boundary *)

(** C1 (as the code has it). [handle_call_tool] returns what the
    dispatch returns; a failure raised during the dispatch or by a
    handler that is an instance of [Exception] (unknown tool, missing
    argument, any failure of the HTTP client, of the parser, of the
    selector engine or of [urljoin] that derives from [Exception]) is
    turned into the result with [isError] set whose only text segment
    is ["Error: "] followed by [str(e)]; a failure that derives from
    [BaseException] only is not caught and leaves [handle_call_tool]. *)
Theorem handle_call_tool_except_Exception (lib : Library) (tool : string)
    (arguments : option (gmap string value)) (tr : trace) :
  match dispatch lib tool arguments tr with
  | (Ok r, tr') => handle_call_tool lib tool arguments tr = (Ok r, tr')
  | (Raise e, tr') =>
      if is_Exception e then
        handle_call_tool lib tool arguments tr
          = (Ok {| content := [mkTextContent "text" ("Error: " ++ exn_str e)];
                   isError := true |}, tr')
      else
        handle_call_tool lib tool arguments tr = (Raise e, tr')
  end.
Proof.
  unfold handle_call_tool.
  destruct (dispatch lib tool arguments tr) as [[r|e] tr'] eqn:Hd.
  - by apply try_Ok.
  - destruct (is_Exception e) eqn:He.
    + by erewrite try_caught by eassumption.
    + by apply try_uncaught.
Qed.

(** C1 (as the specification has it) does not hold: when the task is
    cancelled while [fetch_url] awaits the response, the
    [CancelledError] leaves [handle_call_tool]; no result is returned. *)
Lemma handle_call_tool_lets_BaseException_through :
  ¬ (∀ (lib : Library) (tool : string) (arguments : option (gmap string value))
       (tr : trace),
       ∃ r tr', handle_call_tool lib tool arguments tr = (Ok r, tr')).
Proof.
  intros H.
  destruct (H Site.cancelled "fetch_url"
              (Some {[ "url" := VStr "https://example.com" ]}) [])
    as (r & tr' & Hr).
  vm_compute in Hr. discriminate Hr.
Qed.

(** C4. A name that is not in the catalogue is answered by the error
    result ["Error: Unknown tool: <name>"], whatever the arguments; so
    is the name ["nonexistent"]. *)
Theorem handle_call_tool_unknown (lib : Library)
    (arguments : option (gmap string value)) (tr : trace) :
  (∀ tool : string,
     tool ≠ "fetch_url" → tool ≠ "extract_links" → tool ≠ "extract_text" →
     handle_call_tool lib tool arguments tr
       = (Ok {| content := [mkTextContent "text" ("Error: Unknown tool: " ++ tool)];
                isError := true |}, tr))
  ∧ handle_call_tool lib "nonexistent" arguments tr
      = (Ok {| content := [mkTextContent "text" "Error: Unknown tool: nonexistent"];
               isError := true |}, tr).
Proof.
  assert (Hall : ∀ tool : string,
     tool ≠ "fetch_url" → tool ≠ "extract_links" → tool ≠ "extract_text" →
     handle_call_tool lib tool arguments tr
       = (Ok (error_result ("Error: Unknown tool: " ++ tool)), tr)).
  { intros tool H1 H2 H3. unfold handle_call_tool.
    assert (Hn : tool ∉ map name (tools handle_list_tools)).
    { simpl. intros Hin.
      repeat (apply elem_of_cons in Hin as [Hin|Hin]; [done|]).
      by apply elem_of_nil in Hin. }
    erewrite try_caught; [ | by apply dispatch_unknown | reflexivity ].
    reflexivity. }
  split; [exact Hall|].
  by apply (Hall "nonexistent").
Qed.

Lemma handle_call_tool_unknown_witness :
  "nonexistent" ≠ "fetch_url" ∧
  handle_call_tool Site.library "nonexistent" None []
    = (Ok (error_result "Error: Unknown tool: nonexistent"), []).
Proof.
  split; [discriminate|].
  apply (proj1 (handle_call_tool_unknown Site.library None []) "nonexistent");
    discriminate.
Defined.

(** C5. The catalogue requires [url] of [fetch_url] and of
    [extract_links] and [html] of [extract_text]; a call whose argument
    mapping lacks the required argument of the tool it names returns the
    error result that carries the message of the [KeyError], and the
    trace is left as it was: nothing was fetched, nothing was parsed. *)
Theorem handle_call_tool_missing_required (lib : Library) (t : Tool) (k : string)
    (arguments : option (gmap string value)) (tr : trace) :
  t ∈ tools handle_list_tools → k ∈ required (inputSchema t) →
  or_empty arguments !! k = None →
  map (λ t', (name t', required (inputSchema t'))) (tools handle_list_tools)
    = [("fetch_url", ["url"]); ("extract_links", ["url"]); ("extract_text", ["html"])]
  ∧ handle_call_tool lib (name t) arguments tr
      = (Ok {| content := [mkTextContent "text" ("Error: '" ++ k ++ "'")];
               isError := true |}, tr).
Proof.
  intros Ht Hk Hnone. split; [reflexivity|].
  unfold handle_call_tool.
  erewrite try_caught; [ | by eapply dispatch_missing | reflexivity ].
  reflexivity.
Qed.

Lemma handle_call_tool_missing_required_witness :
  handle_call_tool Site.library "extract_links"
      (Some {[ "base_url" := VStr "https://example.com" ]}) []
    = (Ok (error_result "Error: 'url'"), []).
Proof.
  apply (handle_call_tool_missing_required Site.library
           (mkTool "extract_links" "Extract all links from a webpage"
              (mkInputSchema "object"
                 [ ("url", mkProperty "string" "The URL to extract links from" None);
                   ("base_url", mkProperty "string" "Base URL for relative links" None) ]
                 ["url"]))
           "url" (Some {[ "base_url" := VStr "https://example.com" ]}) []).
  - simpl. apply list_elem_of_further, list_elem_of_here.
  - simpl. apply list_elem_of_here.
  - vm_compute. reflexivity.
Defined.

(** C10. Absent arguments are the empty mapping: the dispatch, the
    result and the trace are those of the call with [{}], for every
    name; for the three tools of the catalogue the result is the error
    result of the missing required argument, and nothing is raised. *)
Theorem handle_call_tool_no_arguments (lib : Library) (tool : string) (tr : trace) :
  handle_call_tool lib tool None tr = handle_call_tool lib tool (Some ∅) tr
  ∧ handle_call_tool lib "fetch_url" None tr
      = (Ok {| content := [mkTextContent "text" "Error: 'url'"]; isError := true |}, tr)
  ∧ handle_call_tool lib "extract_links" None tr
      = (Ok {| content := [mkTextContent "text" "Error: 'url'"]; isError := true |}, tr)
  ∧ handle_call_tool lib "extract_text" None tr
      = (Ok {| content := [mkTextContent "text" "Error: 'html'"]; isError := true |}, tr).
Proof.
  split.
  { unfold handle_call_tool, dispatch. by rewrite or_empty_None_empty. }
  repeat split; unfold handle_call_tool;
    (erewrite try_caught;
       [ | unfold dispatch, fetch_url, extract_links, extract_text; simpl;
           by erewrite bind_Raise by (by apply getitem_None)
         | reflexivity ]);
    reflexivity.
Qed.

(** ** Strings *)




(** ** [fetch_url] *)

Section FetchUrl.

Context (lib : Library).

(** An HTML response: the result is the dump of [html_fetch_result];
    one GET was issued and the body was parsed once. *)
Lemma fetch_url_html args url response soup tr :
  args !! "url" = Some url →
  get_succeeds lib (Timeout (get_default args "timeout" (VInt 30))) url response →
  Str.contains "text/html" (headers_get response "content-type" "") = true →
  html_parser lib (VStr (resp_text response)) = Ok soup →
  fetch_url lib args tr
    = (Ok (text_result (json_dumps lib (JObj
             (html_fetch_result lib response (headers_get response "content-type" "") soup)))),
       (tr ++ [EvGet (Timeout (get_default args "timeout" (VInt 30))) url;
               EvParse (VStr (resp_text response))])%list).
Proof.
  intros Hu (Hi & Hg & Hs) Hc Hp.
  unfold fetch_url, getitem, new_client, client_get, raise_for_status, BeautifulSoup,
    lift, emit, mbind, M_bind, mret, M_ret.
  rewrite Hu. simpl. rewrite Hi. simpl. rewrite Hg. simpl. rewrite Hs. simpl.
  rewrite Hc. simpl. rewrite Hp.
  by rewrite <- app_assoc.
Qed.

(** Any other response: the result is the dump of [plain_fetch_result];
    one GET was issued and nothing was parsed. *)
Lemma fetch_url_plain args url response tr :
  args !! "url" = Some url →
  get_succeeds lib (Timeout (get_default args "timeout" (VInt 30))) url response →
  Str.contains "text/html" (headers_get response "content-type" "") = false →
  fetch_url lib args tr
    = (Ok (text_result (json_dumps lib (JObj
             (plain_fetch_result response (headers_get response "content-type" ""))))),
       (tr ++ [EvGet (Timeout (get_default args "timeout" (VInt 30))) url])%list).
Proof.
  intros Hu (Hi & Hg & Hs) Hc.
  unfold fetch_url, getitem, new_client, client_get, raise_for_status,
    lift, emit, mbind, M_bind, mret, M_ret.
  rewrite Hu. simpl. rewrite Hi. simpl. rewrite Hg. simpl. rewrite Hs. simpl.
  by rewrite Hc.
Qed.

(** The [title] entry of the result for an HTML response, case by
    case: no [<title>] tag, a [<title>] tag with a single string below
    it, any other [<title>] tag. *)
Lemma html_fetch_result_title response content_type soup :
  dict_get "title" (html_fetch_result lib response content_type soup)
    = Some match title soup with
           | None => JStr "No title"
           | Some t =>
               match string_ t with
               | Some s => JStr s
               | None => JNull
               end
           end.
Proof. unfold html_fetch_result. simpl. by destruct (title soup). Qed.

End FetchUrl.




(** C6. For a response whose content type does not contain
    ["text/html"] the result has the four entries [url], [status_code],
    [content_type] and [content], the last one being the body as
    received, and neither [title] nor [text_content]. *)
Theorem fetch_url_non_html (lib : Library) (args : gmap string value)
    (url : value) (response : Response) (tr : trace) :
  args !! "url" = Some url →
  get_succeeds lib (Timeout (get_default args "timeout" (VInt 30))) url response →
  Str.contains "text/html" (headers_get response "content-type" "") = false →
  ∃ (result : list (string * json)) (tr' : trace),
    fetch_url lib args tr = (Ok {| content := [mkTextContent "text" (json_dumps lib (JObj result))];
               isError := false |}, tr')
    ∧ result = [ ("url", JStr (resp_url response));
                 ("status_code", JInt (resp_status_code response));
                 ("content_type", JStr (headers_get response "content-type" ""));
                 ("content", JStr (resp_text response)) ]
    ∧ dict_keys result = ["url"; "status_code"; "content_type"; "content"]
    ∧ dict_get "content" result = Some (JStr (resp_text response))
    ∧ dict_get "title" result = None
    ∧ dict_get "text_content" result = None.
Proof.
  intros Hu Hget Hc.
  eexists _, _. split; [by apply fetch_url_plain|].
  by repeat split.
Qed.

Lemma fetch_url_non_html_witness :
  ∃ (result : list (string * json)) (tr' : trace),
    fetch_url Site.library {[ "url" := VStr "https://example.com/data.json" ]} []
      = (Ok {| content := [mkTextContent "text" (Site.render (JObj result))];
               isError := false |}, tr')
    ∧ result = [ ("url", JStr "https://example.com/data.json");
                 ("status_code", JInt 200);
                 ("content_type", JStr "application/json");
                 ("content", JStr Site.data_json) ]
    ∧ dict_keys result = ["url"; "status_code"; "content_type"; "content"]
    ∧ dict_get "content" result = Some (JStr Site.data_json)
    ∧ dict_get "title" result = None
    ∧ dict_get "text_content" result = None.
Proof.
  apply (fetch_url_non_html Site.library
           {[ "url" := VStr "https://example.com/data.json" ]}
           (VStr "https://example.com/data.json")
           (mkResponse "https://example.com/data.json" 200 Site.json_headers Site.data_json)
           []).
  - vm_compute. reflexivity.
  - repeat split; vm_compute; reflexivity.
  - vm_compute. reflexivity.
Defined.

(** [tag.string] finds the single string below a node, when there is
    one. *)
Lemma string__Some (n : node) (s : string) :
  string_ n = Some s → has_single_string n s.
Proof.
  revert n s. fix IH 1. intros [s'|s'|nm attrs cs] s H; simpl in H.
  - injection H as ->. constructor.
  - injection H as ->. constructor.
  - destruct cs as [|c [|c' cs]]; [discriminate H | | discriminate H].
    constructor. by apply IH.
Qed.

Lemma string__spec (n : node) (s : string) :
  string_ n = Some s ↔ has_single_string n s.
Proof.
  split; [apply string__Some|].
  induction 1; simpl; [reflexivity | reflexivity | assumption].
Qed.

Lemma is_tag_named_spec (nm : string) (n : node) :
  is_tag_named nm n = true ↔ ∃ attrs cs, n = Tag nm attrs cs.
Proof.
  destruct n as [s|s|nm' attrs cs]; simpl.
  - split; [discriminate | intros (? & ? & H); discriminate H].
  - split; [discriminate | intros (? & ? & H); discriminate H].
  - rewrite String.eqb_eq. split; [intros ->; by eexists _, _|].
    intros (? & ? & H). by injection H as <- _ _.
Qed.

(** [find] gives the first tag of the name, in document order. *)
Lemma find_first (nm : string) (soup : node) (before after : list node)
    (attrs : gmap string string) (cs : list node) :
  descendants soup = (before ++ Tag nm attrs cs :: after)%list →
  (∀ attrs' cs', Tag nm attrs' cs' ∉ before) →
  find nm soup = Some (Tag nm attrs cs).
Proof.
  unfold find. intros -> Hbefore.
  induction before as [|n before IH]; simpl.
  - by rewrite String.eqb_refl.
  - destruct (is_tag_named nm n) eqn:Hn.
    + apply is_tag_named_spec in Hn as (attrs' & cs' & ->).
      destruct (Hbefore attrs' cs'). apply list_elem_of_here.
    + apply IH. intros attrs' cs' Hin.
      apply (Hbefore attrs' cs'). by apply list_elem_of_further.
Qed.

Lemma find_none (nm : string) (soup : node) :
  (∀ attrs cs, Tag nm attrs cs ∉ descendants soup) → find nm soup = None.
Proof.
  unfold find. intros Hno.
  induction (descendants soup) as [|n l IH]; simpl; [reflexivity|].
  destruct (is_tag_named nm n) eqn:Hn.
  - apply is_tag_named_spec in Hn as (attrs & cs & ->).
    destruct (Hno attrs cs). apply list_elem_of_here.
  - apply IH. intros attrs cs Hin. apply (Hno attrs cs). by apply list_elem_of_further.
Qed.

(** X10. The [title] entry of the result of [fetch_url] for an HTML
    response: ["No title"] when no tag of the document is named
    [title]; else, for the first tag named [title] in document order,
    the single string below the tag when there is one, and [null]
    when there is none, which is so when the tag has no child and when
    it has two or more. *)
Lemma fetch_url_title (lib : Library) (args : gmap string value)
    (url : value) (response : Response) (soup : node) (tr : trace) :
  args !! "url" = Some url →
  get_succeeds lib (Timeout (get_default args "timeout" (VInt 30))) url response →
  Str.contains "text/html" (headers_get response "content-type" "") = true →
  html_parser lib (VStr (resp_text response)) = Ok soup →
  ∃ (result : list (string * json)) (title_entry : json) (tr' : trace),
    fetch_url lib args tr
      = (Ok {| content := [mkTextContent "text" (json_dumps lib (JObj result))];
               isError := false |}, tr')
    ∧ dict_get "title" result = Some title_entry
    ∧ ((∀ attrs cs, Tag "title" attrs cs ∉ descendants soup) →
       title_entry = JStr "No title")
    ∧ (∀ before attrs cs after,
         descendants soup = (before ++ Tag "title" attrs cs :: after)%list →
         (∀ attrs' cs', Tag "title" attrs' cs' ∉ before) →
         (∀ s, has_single_string (Tag "title" attrs cs) s → title_entry = JStr s)
         ∧ ((∀ s, ¬ has_single_string (Tag "title" attrs cs) s) → title_entry = JNull)
         ∧ (cs = [] → title_entry = JNull)
         ∧ (∀ c1 c2 rest, cs = c1 :: c2 :: rest → title_entry = JNull)
         ∧ (∀ s, cs = [NavigableString s] → title_entry = JStr s)).
Proof.
  intros Hu Hget Hc Hp.
  eexists _, _, _. split; [by apply fetch_url_html|].
  split; [apply html_fetch_result_title|].
  split.
  - intros Hno. unfold title. by rewrite find_none.
  - intros before attrs cs after Hd Hbefore.
    unfold title. rewrite (find_first _ _ _ _ _ _ Hd Hbefore).
    assert (Hsome : ∀ s, has_single_string (Tag "title" attrs cs) s →
                         string_ (Tag "title" attrs cs) = Some s)
      by (intros s; apply string__spec).
    assert (Hnone : (∀ s, ¬ has_single_string (Tag "title" attrs cs) s) →
                    string_ (Tag "title" attrs cs) = None).
    { intros Hno. destruct (string_ (Tag "title" attrs cs)) as [s|] eqn:Hs;
        [|reflexivity]. destruct (Hno s). by apply string__spec. }
    split; [intros s Hs; by rewrite (Hsome s Hs)|].
    split; [intros Hno; by rewrite (Hnone Hno)|].
    split; [intros ->; reflexivity|].
    split; [intros c1 c2 rest ->; reflexivity|].
    intros s ->. reflexivity.
Qed.

(** C7 (the code at a page whose [<title>] tag is empty). The document
    has a [<title>] tag, the tag has no string, and the [title] entry
    of the result is [null]: neither a text nor ["No title"]. *)
Theorem fetch_url_empty_title_is_null :
  ∃ (result : list (string * json)) (tr' : trace),
    fetch_url Site.library {[ "url" := VStr "https://example.com/empty-title" ]} []
      = (Ok (text_result (Site.render (JObj result))), tr')
    ∧ html_parser Site.library (VStr Site.empty_title_html) = Ok Site.empty_title_soup
    ∧ title Site.empty_title_soup = Some (Tag "title" ∅ [])
    ∧ dict_get "title" result = Some JNull.
Proof.
  eexists _, _. split; [|split; [|split]].
  - apply (fetch_url_html Site.library _ (VStr "https://example.com/empty-title")
             (mkResponse "https://example.com/empty-title" 200 Site.html_headers
                Site.empty_title_html) Site.empty_title_soup).
    + vm_compute. reflexivity.
    + repeat split; vm_compute; reflexivity.
    + vm_compute. reflexivity.
    + vm_compute. reflexivity.
  - vm_compute. reflexivity.
  - vm_compute. reflexivity.
  - reflexivity.
Qed.

(** ** [extract_links] *)

Section ExtractLinks.

Context (lib : Library).

Lemma find_all_href_elem nm soup n :
  n ∈ find_all_href nm soup
  ↔ n ∈ descendants soup ∧ is_tag_named nm n = true ∧ is_Some (attr_get "href" n).
Proof.
  unfold find_all_href. rewrite list_elem_of_filter. unfold has_attr.
  rewrite Is_true_true.
  destruct (attr_get "href" n) as [href|]; simpl.
  - split; [intros [[? _] ?] | intros (? & ? & _)]; eauto.
  - split; [intros [[_ []] _] | intros (_ & _ & [? ?])]; discriminate.
Qed.

(** The loop appends one record per tag, in the order of the tags, and
    calls neither the client nor the parser. *)
Lemma for_links_Ok base_url found links tr :
  Forall (λ a, is_Some (attr_get "href" a)) found →
  joins lib base_url found →
  ∃ records,
    for_links lib base_url found links tr = (Ok (links ++ records)%list, tr)
    ∧ Forall2 (is_record_of lib base_url) found records.
Proof.
  intros Hh Hj. revert links.
  induction found as [|a found IH]; intros links.
  - exists []. simpl. rewrite app_nil_r. split; [reflexivity | constructor].
  - apply Forall_cons in Hh as [[href Hhref] Hh].
    apply Forall_cons in Hj as [Ha Hj].
    destruct (Ha href Hhref) as [u Hu].
    destruct (IH Hh Hj (links ++ [link_record (get_text lib a) href u])%list)
      as (records & Hrun & Hrec).
    exists (link_record (get_text lib a) href u :: records). split.
    + simpl. unfold tag_getitem, lift, mbind, M_bind. rewrite Hhref. simpl.
      rewrite Hu. rewrite Hrun. by rewrite <- app_assoc.
    + constructor; [|exact Hrec]. by exists href, u.
Qed.

Lemma for_links_trace base_url found links tr :
  (for_links lib base_url found links tr).2 = tr.
Proof.
  revert links. induction found as [|a found IH]; intros links; simpl; [reflexivity|].
  unfold tag_getitem, lift, mbind, M_bind.
  destruct (attr_get "href" a) as [href|]; simpl; [|reflexivity].
  destruct (urljoin lib base_url href); simpl; [apply IH | reflexivity].
Qed.

Lemma extract_links_Ok args url response soup tr :
  args !! "url" = Some url →
  get_succeeds lib DefaultTimeout url response →
  html_parser lib (VStr (resp_text response)) = Ok soup →
  joins lib (get_default args "base_url" url) (find_all_href "a" soup) →
  ∃ links,
    extract_links lib args tr
      = (Ok (text_result (json_dumps lib (JList links))),
         (tr ++ [EvGet DefaultTimeout url; EvParse (VStr (resp_text response))])%list)
    ∧ Forall2 (is_record_of lib (get_default args "base_url" url))
        (find_all_href "a" soup) links.
Proof.
  intros Hu (Hi & Hg & Hs) Hp Hj.
  assert (Hh : Forall (λ a, is_Some (attr_get "href" a)) (find_all_href "a" soup)).
  { apply Forall_forall. intros a Ha. by apply find_all_href_elem in Ha as (_ & _ & ?). }
  set (tr1 := (tr ++ [EvGet DefaultTimeout url; EvParse (VStr (resp_text response))])%list).
  destruct (for_links_Ok _ _ [] tr1 Hh Hj) as (links & Hrun & Hrec).
  exists links. split; [|exact Hrec].
  unfold extract_links, getitem, new_client, client_get, raise_for_status, BeautifulSoup,
    lift, emit, mbind, M_bind, mret, M_ret.
  rewrite Hu. simpl. rewrite Hi. simpl. rewrite Hg. simpl. rewrite Hs. simpl.
  rewrite Hp. rewrite <- app_assoc. simpl. fold tr1.
  unfold mbind, M_bind in Hrun. by rewrite Hrun.
Qed.

End ExtractLinks.




(** ** [extract_text] *)




(** ** Timeouts *)

Lemma gets_app (tr1 tr2 : trace) : gets (tr1 ++ tr2)%list = (gets tr1 ++ gets tr2)%list.
Proof.
  induction tr1 as [|[t u|m] tr1 IH]; simpl; [reflexivity | by rewrite IH | exact IH].
Qed.

Lemma get_default_absent (d : gmap string value) (k : string) (dflt : value) :
  get_default (delete k d) k dflt = dflt.
Proof. unfold get_default. by rewrite lookup_delete_eq. Qed.

Lemma get_default_present (d : gmap string value) (k : string) (v dflt : value) :
  get_default (<[k := v]> d) k dflt = v.
Proof. unfold get_default. by rewrite lookup_insert_eq. Qed.

(** The GET requests of [fetch_url]: none when [url] is missing or the
    client cannot be built, else one, on a client built with the
    [timeout] argument, 30 by default. *)
Lemma fetch_url_gets (lib : Library) (args : gmap string value) (tr : trace) :
  gets (fetch_url lib args tr).2
    = (gets tr ++
       match args !! "url" with
       | Some url =>
           let timeout := get_default args "timeout" (VInt 30) in
           match client_init lib (Timeout timeout) with
           | Ok _ => [(Timeout timeout, url)]
           | Raise _ => []
           end
       | None => []
       end)%list.
Proof.
  unfold fetch_url, getitem, new_client, client_get, raise_for_status, BeautifulSoup,
    lift, emit, mbind, M_bind, mret, M_ret.
  destruct (args !! "url") as [url|]; simpl; [|by rewrite app_nil_r].
  destruct (client_init lib _); simpl; [|by rewrite app_nil_r].
  destruct (http_get lib _ _) as [response|]; simpl; [|by rewrite gets_app].
  destruct (http_raise_for_status lib _); simpl; [|by rewrite gets_app].
  destruct (Str.contains _ _); simpl; [|by rewrite gets_app].
  destruct (html_parser lib _); simpl;
    rewrite !gets_app; simpl; by rewrite app_nil_r.
Qed.

(** The GET requests of [extract_links]: none when [url] is missing or
    the client cannot be built, else one, on a client built without a
    timeout of its own. *)
Lemma extract_links_gets (lib : Library) (args : gmap string value) (tr : trace) :
  gets (extract_links lib args tr).2
    = (gets tr ++
       match args !! "url" with
       | Some url =>
           match client_init lib DefaultTimeout with
           | Ok _ => [(DefaultTimeout, url)]
           | Raise _ => []
           end
       | None => []
       end)%list.
Proof.
  unfold extract_links, getitem, new_client, client_get, raise_for_status, BeautifulSoup,
    lift, emit, mbind, M_bind, mret, M_ret.
  destruct (args !! "url") as [url|]; simpl; [|by rewrite app_nil_r].
  destruct (client_init lib _); simpl; [|by rewrite app_nil_r].
  destruct (http_get lib _ _) as [response|]; simpl; [|by rewrite gets_app].
  destruct (http_raise_for_status lib _); simpl; [|by rewrite gets_app].
  destruct (html_parser lib _) as [soup|]; simpl;
    [|rewrite !gets_app; simpl; by rewrite app_nil_r].
  pose proof (for_links_trace lib (get_default args "base_url" url)
                (find_all_href "a" soup) []
                ((tr ++ [EvGet DefaultTimeout url]) ++ [EvParse (VStr (resp_text response))])%list)
    as Htr.
  destruct (for_links lib _ _ _ _) as [[links|e] tr']; simpl in *; subst tr';
    rewrite !gets_app; simpl; by rewrite app_nil_r.
Qed.

(** [extract_links] does not read a [timeout] argument. *)
Lemma extract_links_ignores_timeout (lib : Library) (args : gmap string value)
    (v : value) (tr : trace) :
  extract_links lib (<["timeout" := v]> args) tr = extract_links lib args tr.
Proof.
  unfold extract_links, getitem, get_default.
  by rewrite !lookup_insert_ne by done.
Qed.

(** C9. [fetch_url] issues at most one GET, which it issues whenever
    [url] is given and the client can be built, on a client built with
    the [timeout] argument, or with 30 when there is none;
    [extract_links] issues its GET on a client built without a timeout,
    and a [timeout] argument changes nothing to what it does. *)
Theorem timeout_asymmetry (lib : Library) (args : gmap string value) (tr : trace) :
  gets (fetch_url lib args tr).2
    = (gets tr ++
       match args !! "url" with
       | Some url =>
           let timeout := get_default args "timeout" (VInt 30) in
           match client_init lib (Timeout timeout) with
           | Ok _ => [(Timeout timeout, url)]
           | Raise _ => []
           end
       | None => []
       end)%list
  ∧ (∀ v, get_default (<["timeout" := v]> args) "timeout" (VInt 30) = v)
  ∧ get_default (delete "timeout" args) "timeout" (VInt 30) = VInt 30
  ∧ gets (extract_links lib args tr).2
      = (gets tr ++
         match args !! "url" with
         | Some url =>
             match client_init lib DefaultTimeout with
             | Ok _ => [(DefaultTimeout, url)]
             | Raise _ => []
             end
         | None => []
         end)%list
  ∧ (∀ v, extract_links lib (<["timeout" := v]> args) tr = extract_links lib args tr).
Proof.
  split; [apply fetch_url_gets|].
  split; [intros v; apply get_default_present|].
  split; [apply get_default_absent|].
  split; [apply extract_links_gets|].
  intros v. apply extract_links_ignores_timeout.
Qed.

(** * Further properties of the handlers *)

Ltac unfold_handlers :=
  unfold fetch_url, extract_links, extract_text, getitem, new_client, client_get,
    raise_for_status, BeautifulSoup, lift, emit, raise, mbind, M_bind, mret, M_ret.

Lemma parses_app (tr1 tr2 : trace) :
  parses (tr1 ++ tr2)%list = (parses tr1 ++ parses tr2)%list.
Proof.
  induction tr1 as [|[t u|m] tr1 IH]; simpl; [reflexivity | exact IH | by rewrite IH].
Qed.

(** ** What a handler may raise *)

(** Whatever the loop of [extract_links] raises over tags that carry an
    [href] is raised by [urljoin]: [link["href"]] finds its key. *)
Lemma for_links_Raise (lib : Library) (base_url : value) (found : list node)
    (links : list json) (tr : trace) (e : exn) (tr' : trace) :
  Forall (λ a, is_Some (attr_get "href" a)) found →
  for_links lib base_url found links tr = (Raise e, tr') →
  ∃ href, urljoin lib base_url href = Raise e.
Proof.
  intros Hh. revert links.
  induction found as [|a found IH]; intros links Hrun; simpl in Hrun.
  - discriminate Hrun.
  - apply Forall_cons in Hh as [[href Hhref] Hh].
    unfold tag_getitem, lift, mbind, M_bind in Hrun. rewrite Hhref in Hrun.
    simpl in Hrun.
    destruct (urljoin lib base_url href) as [u|e'] eqn:Hu.
    + by eapply IH.
    + injection Hrun as -> _. by exists href.
Qed.

Lemma find_all_href_has_href (nm : string) (soup : node) :
  Forall (λ a, is_Some (attr_get "href" a)) (find_all_href nm soup).
Proof.
  apply Forall_forall. intros a Ha. by apply find_all_href_elem in Ha as (_ & _ & ?).
Qed.

Lemma fetch_url_Raise (lib : Library) (args : gmap string value) (tr : trace)
    (e : exn) (tr' : trace) :
  is_Some (args !! "url") →
  fetch_url lib args tr = (Raise e, tr') → raised_by_library lib e.
Proof.
  intros [url Hu]. unfold_handlers. rewrite Hu. simpl.
  destruct (client_init lib _) as [[]|e1] eqn:Hi; simpl;
    [|intros [= -> _]; left; eauto].
  destruct (http_get lib _ _) as [response|e1] eqn:Hg; simpl;
    [|intros [= -> _]; right; left; eauto].
  destruct (http_raise_for_status lib _) as [[]|e1] eqn:Hs; simpl;
    [|intros [= -> _]; right; right; left; eauto].
  destruct (Str.contains _ _); simpl; [|discriminate].
  destruct (html_parser lib _) as [soup|e1] eqn:Hp; simpl; [discriminate|].
  intros [= -> _]. right; right; right; left. eauto.
Qed.

Lemma extract_links_Raise (lib : Library) (args : gmap string value) (tr : trace)
    (e : exn) (tr' : trace) :
  is_Some (args !! "url") →
  extract_links lib args tr = (Raise e, tr') → raised_by_library lib e.
Proof.
  intros [url Hu]. unfold_handlers. rewrite Hu. simpl.
  destruct (client_init lib _) as [[]|e1] eqn:Hi; simpl;
    [|intros [= -> _]; left; eauto].
  destruct (http_get lib _ _) as [response|e1] eqn:Hg; simpl;
    [|intros [= -> _]; right; left; eauto].
  destruct (http_raise_for_status lib _) as [[]|e1] eqn:Hs; simpl;
    [|intros [= -> _]; right; right; left; eauto].
  destruct (html_parser lib _) as [soup|e1] eqn:Hp; simpl;
    [|intros [= -> _]; right; right; right; left; eauto].
  destruct (for_links lib _ _ _ _) as [[links|e1] tr1] eqn:Hf; simpl; [discriminate|].
  intros [= -> _].
  apply for_links_Raise in Hf as [href Hj]; [|apply find_all_href_has_href].
  do 5 right. eauto.
Qed.

Lemma extract_text_Raise (lib : Library) (args : gmap string value) (tr : trace)
    (e : exn) (tr' : trace) :
  is_Some (args !! "html") →
  extract_text lib args tr = (Raise e, tr') → raised_by_library lib e.
Proof.
  intros [html Hh]. unfold_handlers. rewrite Hh. simpl.
  destruct (html_parser lib _) as [soup|e1] eqn:Hp; simpl;
    [|intros [= -> _]; right; right; right; left; eauto].
  destruct (truthy _); simpl; [|discriminate].
  destruct (select lib _ _) as [elements|e1] eqn:Hs; simpl; [discriminate|].
  intros [= -> _]. do 4 right. left. eauto.
Qed.

(** X1. When the arguments hold what the catalogue requires of the
    tool, nothing in the server's own code fails: whatever the dispatch
    raises is raised by a call into a library (the client, the parser,
    the selector engine or [urljoin]); in particular [link["href"]]
    never raises. *)
Theorem dispatch_failure_is_library (lib : Library) (t : Tool)
    (args : gmap string value) (tr : trace) (e : exn) (tr' : trace) :
  t ∈ tools handle_list_tools →
  (∀ k, k ∈ required (inputSchema t) → is_Some (args !! k)) →
  dispatch lib (name t) (Some args) tr = (Raise e, tr') →
  raised_by_library lib e.
Proof.
  intros Ht Hreq. unfold handle_list_tools in Ht. simpl in Ht.
  unfold dispatch. rewrite or_empty_Some.
  repeat (apply elem_of_cons in Ht as [->|Ht]);
    [ | | | by apply elem_of_nil in Ht ]; simpl in *.
  - apply fetch_url_Raise, Hreq, list_elem_of_here.
  - apply extract_links_Raise, Hreq, list_elem_of_here.
  - apply extract_text_Raise, Hreq, list_elem_of_here.
Qed.

Lemma dispatch_failure_is_library_witness :
  raised_by_library Site.library Site.connect_error.
Proof.
  apply (dispatch_failure_is_library Site.library
           (mkTool "fetch_url" "Fetch content from a URL"
              (mkInputSchema "object"
                 [ ("url", mkProperty "string" "The URL to fetch" None);
                   ("timeout", mkProperty "number" "Request timeout in seconds"
                                 (Some (JInt 30))) ]
                 ["url"]))
           {[ "url" := VStr "https://nowhere.invalid" ]} []
           Site.connect_error
           [ EvGet (Timeout (VInt 30)) (VStr "https://nowhere.invalid") ]).
  - simpl. apply list_elem_of_here.
  - simpl. intros k Hk. apply list_elem_of_singleton in Hk as ->.
    vm_compute. by eexists.
  - vm_compute. reflexivity.
Defined.

(** ** The shape of a result *)

(** What a handler returns is a [text_result]. *)
Lemma dispatch_Ok_text_result (lib : Library) (tool : string)
    (arguments : option (gmap string value)) (tr : trace)
    (r : CallToolResult) (tr' : trace) :
  dispatch lib tool arguments tr = (Ok r, tr') → ∃ t, r = text_result t.
Proof.
  unfold dispatch.
  destruct (String.eqb tool "fetch_url");
    [|destruct (String.eqb tool "extract_links");
      [|destruct (String.eqb tool "extract_text"); [|discriminate]]];
    unfold_handlers;
    destruct (or_empty arguments !! _); simpl; try discriminate.
  - destruct (client_init lib _) as [[]|]; simpl; [|discriminate].
    destruct (http_get lib _ _); simpl; [|discriminate].
    destruct (http_raise_for_status lib _) as [[]|]; simpl; [|discriminate].
    destruct (Str.contains _ _); simpl; [|intros [= <- _]; by eexists].
    destruct (html_parser lib _); simpl; [|discriminate].
    intros [= <- _]. by eexists.
  - destruct (client_init lib _) as [[]|]; simpl; [|discriminate].
    destruct (http_get lib _ _); simpl; [|discriminate].
    destruct (http_raise_for_status lib _) as [[]|]; simpl; [|discriminate].
    destruct (html_parser lib _); simpl; [|discriminate].
    destruct (for_links lib _ _ _ _) as [[links|] ?]; simpl; [|discriminate].
    intros [= <- _]. by eexists.
  - destruct (html_parser lib _); simpl; [|discriminate].
    destruct (truthy _); simpl; [|intros [= <- _]; by eexists].
    destruct (select lib _ _); simpl; [|discriminate].
    intros [= <- _]. by eexists.
Qed.

(** X2. Every result that [handle_call_tool] returns holds exactly one
    content segment, of type ["text"]; the result is flagged as an
    error exactly when the dispatch raised, and the text of a flagged
    result starts with ["Error: "]. *)
Theorem handle_call_tool_result_shape (lib : Library) (tool : string)
    (arguments : option (gmap string value)) (tr : trace)
    (r : CallToolResult) (tr' : trace) :
  handle_call_tool lib tool arguments tr = (Ok r, tr') →
  ∃ t : string,
    content r = [mkTextContent "text" t]
    ∧ (isError r = true ↔ ∃ e, dispatch lib tool arguments tr = (Raise e, tr'))
    ∧ (isError r = true → String.prefix "Error: " t = true).
Proof.
  unfold handle_call_tool, try_except_Exception.
  destruct (dispatch lib tool arguments tr) as [[r0|e] tr0] eqn:Hd.
  - intros [= <- <-].
    destruct (dispatch_Ok_text_result _ _ _ _ _ _ Hd) as [t ->].
    exists t. split; [reflexivity|]. split; [|discriminate].
    split; [discriminate | intros [e He]; discriminate He].
  - destruct (is_Exception e); [|discriminate].
    intros [= <- <-]. eexists. split; [reflexivity|].
    split; [|intros _; simpl; by destruct (exn_str e)].
    split; [by exists e | reflexivity].
Qed.

Lemma handle_call_tool_result_shape_witness :
  ∃ t : string,
    content (error_result "Error: 'html'") = [mkTextContent "text" t]
    ∧ (isError (error_result "Error: 'html'") = true
       ↔ ∃ e, dispatch Site.library "extract_text" None [] = (Raise e, []))
    ∧ (isError (error_result "Error: 'html'") = true
       → String.prefix "Error: " t = true).
Proof.
  apply (handle_call_tool_result_shape Site.library "extract_text" None []
           (error_result "Error: 'html'") []).
  vm_compute. reflexivity.
Defined.

(** ** [extract_text] without a selector *)

(** X3. When no selector is given, or the selector is an object that
    [if selector:] takes for false (the empty string, [None], [0],
    [False], an empty list), [extract_text] returns the text of the
    whole document, in a result that is not an error, and the selector
    engine has no say in it. *)
Theorem extract_text_whole_document (lib : Library) (args : gmap string value)
    (html : value) (soup : node) (tr : trace) :
  args !! "html" = Some html →
  truthy (get_default args "selector" VNone) = false →
  html_parser lib html = Ok soup →
  handle_call_tool lib "extract_text" (Some args) tr
    = (Ok {| content := [mkTextContent "text" (get_text lib soup)];
             isError := false |},
       (tr ++ [EvParse html])%list)
  ∧ truthy (VStr "") = false ∧ truthy VNone = false ∧ truthy (VInt 0) = false
  ∧ truthy (VBool false) = false ∧ truthy (VList []) = false.
Proof.
  intros Hh Ht Hp. split; [|by repeat split].
  unfold handle_call_tool. apply try_Ok.
  unfold dispatch. rewrite or_empty_Some. simpl.
  unfold_handlers. rewrite Hh. simpl. rewrite Hp, Ht. reflexivity.
Qed.

Lemma extract_text_whole_document_witness :
  handle_call_tool Site.library "extract_text"
      (Some {[ "html" := VStr Site.home_html; "selector" := VStr "" ]}) []
    = (Ok {| content := [mkTextContent "text" "ExampleABLinkTop"]; isError := false |},
       [ EvParse (VStr Site.home_html) ]).
Proof.
  apply (extract_text_whole_document Site.library
           {[ "html" := VStr Site.home_html; "selector" := VStr "" ]}
           (VStr Site.home_html) Site.home_soup []);
    vm_compute; reflexivity.
Defined.

(** ** What a call adds to the trace *)

Lemma for_links_frame (lib : Library) (base_url : value) (found : list node)
    (links : list json) (tr : trace) :
  for_links lib base_url found links tr
    = ((for_links lib base_url found links []).1, tr).
Proof.
  revert links. induction found as [|a found IH]; intros links; simpl; [reflexivity|].
  unfold tag_getitem, lift, mbind, M_bind.
  destruct (attr_get "href" a) as [href|]; simpl; [|reflexivity].
  destruct (urljoin lib base_url href); simpl; [apply IH | reflexivity].
Qed.

(** The events of a dispatch: they do not depend on the trace so far,
    and neither does the outcome. *)
Lemma dispatch_frame (lib : Library) (tool : string)
    (arguments : option (gmap string value)) (tr : trace) :
  dispatch lib tool arguments tr
    = ((dispatch lib tool arguments []).1,
       (tr ++ (dispatch lib tool arguments []).2)%list).
Proof.
  unfold dispatch.
  destruct (String.eqb tool "fetch_url");
    [|destruct (String.eqb tool "extract_links");
      [|destruct (String.eqb tool "extract_text");
        [|unfold raise; simpl; by rewrite app_nil_r]]];
    unfold_handlers;
    (destruct (or_empty arguments !! _); simpl; [|by rewrite app_nil_r]).
  - destruct (client_init lib _) as [[]|]; simpl; [|by rewrite app_nil_r].
    destruct (http_get lib _ _); simpl; [|reflexivity].
    destruct (http_raise_for_status lib _) as [[]|]; simpl; [|reflexivity].
    destruct (Str.contains _ _); simpl; [|reflexivity].
    destruct (html_parser lib _); simpl; by rewrite <- app_assoc.
  - destruct (client_init lib _) as [[]|]; simpl; [|by rewrite app_nil_r].
    destruct (http_get lib _ _); simpl; [|reflexivity].
    destruct (http_raise_for_status lib _) as [[]|]; simpl; [|reflexivity].
    destruct (html_parser lib _); simpl; [|by rewrite <- app_assoc].
    rewrite for_links_frame.
    rewrite (for_links_frame lib _ _ _ [_; _]).
    destruct (for_links lib _ _ _ []).1; simpl; by rewrite <- app_assoc.
  - destruct (html_parser lib _); simpl; [|reflexivity].
    destruct (truthy _); simpl; [|reflexivity].
    destruct (select lib _ _); reflexivity.
Qed.

(** The events of a dispatch started on the empty trace. *)
Lemma dispatch_events (lib : Library) (tool : string)
    (arguments : option (gmap string value)) :
  let evs := (dispatch lib tool arguments []).2 in
  evs = []
  ∨ (∃ t url, tool ≠ "extract_text" ∧ evs = [EvGet t url])
  ∨ (∃ t url markup, tool ≠ "extract_text" ∧ evs = [EvGet t url; EvParse markup])
  ∨ (∃ markup, tool = "extract_text" ∧ evs = [EvParse markup]).
Proof.
  unfold dispatch.
  destruct (String.eqb_spec tool "fetch_url") as [->|?];
    [|destruct (String.eqb_spec tool "extract_links") as [->|?];
      [|destruct (String.eqb_spec tool "extract_text") as [->|?]; [|by left]]];
    unfold_handlers;
    (destruct (or_empty arguments !! _); simpl; [|by left]).
  - destruct (client_init lib _) as [[]|]; simpl; [|by left].
    destruct (http_get lib _ _); simpl; [|right; left; by eexists _, _].
    destruct (http_raise_for_status lib _) as [[]|]; simpl;
      [|right; left; by eexists _, _].
    destruct (Str.contains _ _); simpl; [|right; left; by eexists _, _].
    destruct (html_parser lib _); simpl; right; right; left; by eexists _, _, _.
  - destruct (client_init lib _) as [[]|]; simpl; [|by left].
    destruct (http_get lib _ _); simpl; [|right; left; by eexists _, _].
    destruct (http_raise_for_status lib _) as [[]|]; simpl;
      [|right; left; by eexists _, _].
    destruct (html_parser lib _); simpl; [|right; right; left; by eexists _, _, _].
    rewrite for_links_frame.
    destruct (for_links lib _ _ _ []).1; simpl; right; right; left; by eexists _, _, _.
  - destruct (html_parser lib _); simpl; [|do 3 right; by eexists].
    destruct (truthy _); simpl; [|do 3 right; by eexists].
    destruct (select lib _ _); simpl; do 3 right; by eexists.
Qed.

Lemma handle_call_tool_frame (lib : Library) (tool : string)
    (arguments : option (gmap string value)) (tr : trace) :
  handle_call_tool lib tool arguments tr
    = ((handle_call_tool lib tool arguments []).1,
       (tr ++ (dispatch lib tool arguments []).2)%list).
Proof.
  unfold handle_call_tool, try_except_Exception.
  rewrite (dispatch_frame lib tool arguments tr).
  destruct (dispatch lib tool arguments []) as [[r|e] evs]; simpl; [reflexivity|].
  by destruct (is_Exception e).
Qed.

(** X4. A call only appends to the trace, and what it appends is
    nothing, one GET, one GET followed by one parse, or (for
    [extract_text], which never issues a GET) one parse: no request is
    issued twice and nothing is parsed twice. What is appended and what
    is returned do not depend on the calls made before. *)
Theorem handle_call_tool_trace (lib : Library) (tool : string)
    (arguments : option (gmap string value)) (tr : trace) :
  ∃ evs : trace,
    (handle_call_tool lib tool arguments tr).2 = (tr ++ evs)%list
    ∧ (handle_call_tool lib tool arguments []).2 = evs
    ∧ (handle_call_tool lib tool arguments tr).1
        = (handle_call_tool lib tool arguments []).1
    ∧ (evs = []
       ∨ (∃ t url, tool ≠ "extract_text" ∧ evs = [EvGet t url])
       ∨ (∃ t url markup, tool ≠ "extract_text" ∧ evs = [EvGet t url; EvParse markup])
       ∨ (∃ markup, tool = "extract_text" ∧ evs = [EvParse markup]))
    ∧ (length (gets evs) ≤ 1)%nat
    ∧ (length (parses evs) ≤ 1)%nat.
Proof.
  exists (dispatch lib tool arguments []).2.
  split; [by rewrite handle_call_tool_frame|].
  split; [by rewrite handle_call_tool_frame|].
  split; [by rewrite handle_call_tool_frame|].
  pose proof (dispatch_events lib tool arguments) as Hev. simpl in Hev.
  split; [exact Hev|].
  destruct Hev as [->|[(t & u & _ & ->)|[(t & u & m & _ & ->)|(m & _ & ->)]]];
    simpl; lia.
Qed.

(** ** Failures of the request *)

(** X5. When the GET fails, or the status of the response is an error,
    with an exception that derives from [Exception], [fetch_url] and
    [extract_links] return the error result of that exception; one GET
    was issued, it is not tried again, and the body is never parsed. *)
Theorem request_failure_is_error (lib : Library) (args : gmap string value)
    (url : value) (e : exn) (tr : trace) :
  args !! "url" = Some url →
  is_Exception e = true →
  (request_fails lib (Timeout (get_default args "timeout" (VInt 30))) url e →
   handle_call_tool lib "fetch_url" (Some args) tr
     = (Ok {| content := [mkTextContent "text" ("Error: " ++ exn_str e)];
              isError := true |},
        (tr ++ [EvGet (Timeout (get_default args "timeout" (VInt 30))) url])%list))
  ∧ (request_fails lib DefaultTimeout url e →
     handle_call_tool lib "extract_links" (Some args) tr
       = (Ok {| content := [mkTextContent "text" ("Error: " ++ exn_str e)];
                isError := true |},
          (tr ++ [EvGet DefaultTimeout url])%list)).
Proof.
  intros Hu He.
  split; intros (Hi & Hf); unfold handle_call_tool;
    (erewrite try_caught; [reflexivity | | exact He]);
    unfold dispatch; rewrite or_empty_Some; simpl;
    unfold_handlers; rewrite Hu; simpl; rewrite Hi; simpl;
    destruct Hf as [Hg | (response & Hg & Hs)]; rewrite Hg; simpl;
    try reflexivity; by rewrite Hs.
Qed.

Lemma request_failure_is_error_witness :
  handle_call_tool Site.library "fetch_url"
      (Some {[ "url" := VStr "https://nowhere.invalid" ]}) []
    = (Ok {| content :=
               [mkTextContent "text" "Error: [Errno -2] Name or service not known"];
             isError := true |},
       [ EvGet (Timeout (VInt 30)) (VStr "https://nowhere.invalid") ]).
Proof.
  destruct (request_failure_is_error Site.library
              {[ "url" := VStr "https://nowhere.invalid" ]}
              (VStr "https://nowhere.invalid") Site.connect_error [])
    as [Hfetch _].
  - vm_compute. reflexivity.
  - reflexivity.
  - apply Hfetch.
    split; [vm_compute; reflexivity | left; vm_compute; reflexivity].
Defined.

(** ** A link that does not join *)

Lemma for_links_app (lib : Library) (base_url : value) (l1 l2 : list node)
    (links : list json) (tr : trace) :
  for_links lib base_url (l1 ++ l2)%list links tr
    = (for_links lib base_url l1 links ≫= for_links lib base_url l2) tr.
Proof.
  revert links. induction l1 as [|a l1 IH]; intros links; simpl; [reflexivity|].
  unfold tag_getitem, lift, mbind, M_bind in *.
  destruct (attr_get "href" a) as [href|]; simpl; [|reflexivity].
  destruct (urljoin lib base_url href); simpl; [apply IH | reflexivity].
Qed.

(** X6. [extract_links] gives all the links or none: when the [href]
    of one of the tags found does not join to the base, the [href]s
    before it joining, the call returns the error result of that
    failure and no list at all. *)
Theorem extract_links_all_or_nothing (lib : Library) (args : gmap string value)
    (url : value) (response : Response) (soup : node)
    (before after : list node) (a : node) (href : string) (e : exn) (tr : trace) :
  args !! "url" = Some url →
  get_succeeds lib DefaultTimeout url response →
  html_parser lib (VStr (resp_text response)) = Ok soup →
  find_all_href "a" soup = (before ++ a :: after)%list →
  joins lib (get_default args "base_url" url) before →
  attr_get "href" a = Some href →
  urljoin lib (get_default args "base_url" url) href = Raise e →
  is_Exception e = true →
  handle_call_tool lib "extract_links" (Some args) tr
    = (Ok {| content := [mkTextContent "text" ("Error: " ++ exn_str e)];
             isError := true |},
       (tr ++ [EvGet DefaultTimeout url; EvParse (VStr (resp_text response))])%list).
Proof.
  intros Hu (Hi & Hg & Hs) Hp Hfound Hj Hhref Hjoin He.
  assert (Hh : Forall (λ n, is_Some (attr_get "href" n)) before).
  { pose proof (find_all_href_has_href "a" soup) as Hall.
    rewrite Hfound in Hall. by apply Forall_app in Hall as [? _]. }
  unfold handle_call_tool.
  erewrite try_caught; [reflexivity | | exact He].
  unfold dispatch. rewrite or_empty_Some. simpl.
  unfold_handlers. rewrite Hu. simpl. rewrite Hi. simpl. rewrite Hg. simpl.
  rewrite Hs. simpl. rewrite Hp. rewrite Hfound, for_links_app.
  destruct (for_links_Ok lib (get_default args "base_url" url) before []
              ((tr ++ [EvGet DefaultTimeout url]) ++ [EvParse (VStr (resp_text response))])%list
              Hh Hj) as (records & Hrun & _).
  unfold mbind, M_bind in *. rewrite Hrun. simpl.
  unfold tag_getitem, lift, mbind, M_bind. rewrite Hhref. simpl. rewrite Hjoin.
  by rewrite <- app_assoc.
Qed.

Lemma extract_links_all_or_nothing_witness :
  handle_call_tool Site.links_library "extract_links"
      (Some {[ "url" := VStr "https://example.com/links" ]}) []
    = (Ok {| content := [mkTextContent "text" "Error: Invalid IPv6 URL"];
             isError := true |},
       [ EvGet DefaultTimeout (VStr "https://example.com/links");
         EvParse (VStr Site.links_html) ]).
Proof.
  apply (extract_links_all_or_nothing Site.links_library
           {[ "url" := VStr "https://example.com/links" ]}
           (VStr "https://example.com/links")
           (mkResponse "https://example.com/links" 200 Site.html_headers Site.links_html)
           Site.links_soup
           [ Tag "a" {[ "href" := "/one" ]} [ NavigableString "One" ] ]
           [ Tag "a" {[ "href" := "/two" ]} [ NavigableString "Two" ] ]
           (Tag "a" {[ "href" := "http://[bad/" ]} [ NavigableString "Bad" ])
           "http://[bad/" (ValueError "Invalid IPv6 URL") []).
  - vm_compute. reflexivity.
  - repeat split; vm_compute; reflexivity.
  - reflexivity.
  - vm_compute. reflexivity.
  - repeat constructor. intros href Hh. vm_compute in Hh.
    injection Hh as <-. by eexists.
  - vm_compute. reflexivity.
  - vm_compute. reflexivity.
  - reflexivity.
Defined.

(** ** The arguments a handler reads *)

(** X7. A tool reads the arguments that its schema declares and no
    other: two argument mappings that agree on the properties declared
    for the tool give the same result and the same trace; an argument
    that is not declared is ignored, not rejected. *)
Theorem handle_call_tool_reads_declared (lib : Library) (t : Tool)
    (args args' : gmap string value) (tr : trace) :
  t ∈ tools handle_list_tools →
  (∀ k, k ∈ map fst (properties (inputSchema t)) → args !! k = args' !! k) →
  handle_call_tool lib (name t) (Some args) tr
    = handle_call_tool lib (name t) (Some args') tr.
Proof.
  intros Ht Hagree. unfold handle_list_tools in Ht. simpl in Ht.
  unfold handle_call_tool, dispatch. rewrite !or_empty_Some.
  repeat (apply elem_of_cons in Ht as [->|Ht]);
    [ | | | by apply elem_of_nil in Ht ]; simpl in *;
    unfold fetch_url, extract_links, extract_text, getitem, get_default;
    rewrite !Hagree; try reflexivity;
    repeat first [ apply list_elem_of_here | apply list_elem_of_further ].
Qed.

Lemma handle_call_tool_reads_declared_witness :
  handle_call_tool Site.library "extract_text"
      (Some {[ "html" := VStr Site.home_html; "selector" := VStr "p" ]}) []
    = handle_call_tool Site.library "extract_text"
        (Some {[ "html" := VStr Site.home_html; "selector" := VStr "p";
                 "timeout" := VInt 1 ]}) [].
Proof.
  apply (handle_call_tool_reads_declared Site.library
           (mkTool "extract_text" "Extract clean text content from HTML"
              (mkInputSchema "object"
                 [ ("html", mkProperty "string" "HTML content to extract text from" None);
                   ("selector", mkProperty "string"
                                  "CSS selector to target specific elements" None) ]
                 ["html"]))
           {[ "html" := VStr Site.home_html; "selector" := VStr "p" ]}
           {[ "html" := VStr Site.home_html; "selector" := VStr "p";
              "timeout" := VInt 1 ]} []).
  - simpl. do 2 apply list_elem_of_further. apply list_elem_of_here.
  - simpl. intros k Hk.
    apply elem_of_cons in Hk as [->|Hk]; [vm_compute; reflexivity|].
    apply list_elem_of_singleton in Hk as ->. vm_compute. reflexivity.
Defined.

(** X8. The default of [timeout] that the catalogue declares is the
    one [fetch_url] uses: a call without [timeout] is the call with
    [timeout] 30. *)
Theorem fetch_url_declared_default (lib : Library) (args : gmap string value)
    (tr : trace) :
  (∃ t p, t ∈ tools handle_list_tools ∧ name t = "fetch_url"
          ∧ ("timeout", p) ∈ properties (inputSchema t)
          ∧ prop_default p = Some (JInt 30))
  ∧ handle_call_tool lib "fetch_url" (Some (delete "timeout" args)) tr
      = handle_call_tool lib "fetch_url" (Some (<["timeout" := VInt 30]> args)) tr.
Proof.
  split.
  - eexists _, _. split; [apply list_elem_of_here|]. split; [reflexivity|].
    split; [apply list_elem_of_further, list_elem_of_here | reflexivity].
  - unfold handle_call_tool, dispatch. rewrite !or_empty_Some. simpl.
    unfold fetch_url, getitem.
    rewrite get_default_absent, get_default_present.
    rewrite lookup_delete_ne, lookup_insert_ne by done. reflexivity.
Qed.

(** ** The content type *)

Lemma prefix_spec (sub s : string) :
  String.prefix sub s = true ↔ ∃ post, s = sub ++ post.
Proof.
  revert sub. induction s as [|c s IH]; intros [|d sub]; simpl.
  - split; [by exists "" | reflexivity].
  - split; [discriminate | intros [post H]; discriminate H].
  - split; [by eexists | reflexivity].
  - destruct (ascii_dec d c) as [->|Hne].
    + rewrite IH. split; intros [post H]; exists post; [by rewrite H | by injection H].
    + split; [discriminate | intros [post H]; injection H as Hcd _; by destruct Hne].
Qed.

(** [Str.contains] is Python's [sub in s]: [sub] occurs in [s]. *)
Lemma contains_spec (sub s : string) :
  Str.contains sub s = true ↔ ∃ pre post, s = pre ++ sub ++ post.
Proof.
  induction s as [|c s IH].
  - change (Str.contains sub "") with (String.prefix sub "" || false).
    rewrite orb_false_r, prefix_spec. split.
    + intros [post H]. by exists "", post.
    + intros (pre & post & H). destruct pre; [by exists post | discriminate H].
  - change (Str.contains sub (String c s))
      with (String.prefix sub (String c s) || Str.contains sub s).
    rewrite orb_true_iff, prefix_spec, IH. split.
    + intros [[post H] | (pre & post & H)].
      * by exists "", post.
      * exists (String c pre), post. simpl. by rewrite H.
    + intros (pre & post & H). destruct pre as [|d pre]; simpl in H.
      * left. by exists post.
      * right. injection H as _ H. by exists pre, post.
Qed.

(** X9. After a successful GET, [fetch_url] parses the body exactly
    when ["text/html"] occurs, in these very characters, somewhere in
    the content type (so with a [charset] after it too); when the
    header is absent the content type is the empty string, nothing is
    parsed and the [content_type] entry of the result is [""]. *)
Theorem fetch_url_content_type (lib : Library) (args : gmap string value)
    (url : value) (response : Response) (tr : trace) :
  args !! "url" = Some url →
  get_succeeds lib (Timeout (get_default args "timeout" (VInt 30))) url response →
  ((∃ pre post, headers_get response "content-type" "" = pre ++ "text/html" ++ post)
   ↔ parses (fetch_url lib args tr).2
       = (parses tr ++ [VStr (resp_text response)])%list)
  ∧ (resp_headers response !! "content-type" = None →
     fetch_url lib args tr
       = (Ok {| content := [mkTextContent "text" (json_dumps lib (JObj
                   [ ("url", JStr (resp_url response));
                     ("status_code", JInt (resp_status_code response));
                     ("content_type", JStr "");
                     ("content", JStr (resp_text response)) ]))];
                isError := false |},
          (tr ++ [EvGet (Timeout (get_default args "timeout" (VInt 30))) url])%list)).
Proof.
  intros Hu Hget. split.
  - rewrite <- contains_spec.
    destruct (Str.contains "text/html" (headers_get response "content-type" ""))
      eqn:Hc.
    + split; [intros _|reflexivity].
      destruct Hget as (Hi & Hg & Hs). unfold_handlers.
      rewrite Hu. simpl. rewrite Hi. simpl. rewrite Hg. simpl. rewrite Hs. simpl.
      rewrite Hc. simpl.
      destruct (html_parser lib _); simpl; rewrite !parses_app; simpl;
        by rewrite app_nil_r.
    + split; [discriminate|].
      rewrite (fetch_url_plain lib args url response tr Hu Hget Hc). simpl.
      rewrite parses_app. simpl. rewrite app_nil_r. intros H.
      apply (f_equal length) in H. rewrite length_app in H. simpl in H. lia.
  - intros Hnone.
    assert (Hct : headers_get response "content-type" "" = "").
    { unfold headers_get. by rewrite Hnone. }
    rewrite (fetch_url_plain lib args url response tr Hu Hget);
      [by rewrite Hct | by rewrite Hct].
Qed.

Lemma fetch_url_content_type_witness :
  fetch_url Site.bare {[ "url" := VStr "gopher://example.com" ]} []
    = (Ok {| content := [mkTextContent "text" (Site.render (JObj
                [ ("url", JStr "gopher://example.com");
                  ("status_code", JInt 200);
                  ("content_type", JStr "");
                  ("content", JStr "<p>A</p>") ]))];
             isError := false |},
       [ EvGet (Timeout (VInt 30)) (VStr "gopher://example.com") ]).
Proof.
  destruct (fetch_url_content_type Site.bare {[ "url" := VStr "gopher://example.com" ]}
              (VStr "gopher://example.com")
              (mkResponse "gopher://example.com" 200 ∅ "<p>A</p>") [])
    as [_ Hbare].
  - vm_compute. reflexivity.
  - repeat split; vm_compute; reflexivity.
  - apply Hbare. vm_compute. reflexivity.
Defined.

(** ** The title *)

Lemma fetch_url_title_witness :
  ∃ (result : list (string * json)) (tr' : trace),
    fetch_url Site.library {[ "url" := VStr "https://example.com" ]} []
      = (Ok {| content := [mkTextContent "text" (Site.render (JObj result))];
               isError := false |}, tr')
    ∧ dict_get "title" result = Some (JStr "Example").
Proof.
  destruct (fetch_url_title Site.library {[ "url" := VStr "https://example.com" ]}
              (VStr "https://example.com")
              (mkResponse "https://example.com" 200 Site.html_headers Site.home_html)
              Site.home_soup [])
    as (result & title_entry & tr' & Hrun & Hentry & _ & Hfirst).
  - vm_compute. reflexivity.
  - repeat split; vm_compute; reflexivity.
  - vm_compute. reflexivity.
  - vm_compute. reflexivity.
  - destruct (Hfirst (take 2 (descendants Site.home_soup)) ∅
                [ NavigableString "Example" ]
                (drop 3 (descendants Site.home_soup)))
      as (_ & _ & _ & _ & Hs).
    + reflexivity.
    + intros attrs' cs' Hin. simpl in Hin.
      repeat (apply elem_of_cons in Hin as [Hin|Hin]; [discriminate Hin|]).
      by apply elem_of_nil in Hin.
    + exists result, tr'. split; [exact Hrun|].
      by rewrite Hentry, (Hs "Example" eq_refl).
Defined.

(** ** A page without links *)

(** X11. A page on which no [a] tag carries an [href] gives the dump
    of the empty list, not an error, whatever [base_url] is. *)
Theorem extract_links_no_links (lib : Library) (args : gmap string value)
    (url : value) (response : Response) (soup : node) (tr : trace) :
  args !! "url" = Some url →
  get_succeeds lib DefaultTimeout url response →
  html_parser lib (VStr (resp_text response)) = Ok soup →
  (∀ n, n ∈ descendants soup → is_tag_named "a" n = true → attr_get "href" n = None) →
  handle_call_tool lib "extract_links" (Some args) tr
    = (Ok {| content := [mkTextContent "text" (json_dumps lib (JList []))];
             isError := false |},
       (tr ++ [EvGet DefaultTimeout url; EvParse (VStr (resp_text response))])%list).
Proof.
  intros Hu Hget Hp Hno.
  assert (Hnil : find_all_href "a" soup = []).
  { destruct (find_all_href "a" soup) as [|n l] eqn:Hf; [reflexivity|].
    assert (Hin : n ∈ find_all_href "a" soup) by (rewrite Hf; apply list_elem_of_here).
    apply find_all_href_elem in Hin as (Hd & Hn & [href Hh]).
    rewrite (Hno n Hd Hn) in Hh. discriminate Hh. }
  destruct (extract_links_Ok lib args url response soup tr Hu Hget Hp)
    as (links & Hrun & Hrec).
  { rewrite Hnil. constructor. }
  rewrite Hnil in Hrec. apply Forall2_nil_inv_l in Hrec as ->.
  unfold handle_call_tool. apply try_Ok.
  unfold dispatch. rewrite or_empty_Some. simpl. exact Hrun.
Qed.

Lemma extract_links_no_links_witness :
  handle_call_tool Site.library "extract_links"
      (Some {[ "url" := VStr "https://example.com/empty-title" ]}) []
    = (Ok (text_result "[]"),
       [ EvGet DefaultTimeout (VStr "https://example.com/empty-title");
         EvParse (VStr Site.empty_title_html) ]).
Proof.
  apply (extract_links_no_links Site.library
           {[ "url" := VStr "https://example.com/empty-title" ]}
           (VStr "https://example.com/empty-title")
           (mkResponse "https://example.com/empty-title" 200 Site.html_headers
              Site.empty_title_html)
           Site.empty_title_soup []).
  - vm_compute. reflexivity.
  - repeat split; vm_compute; reflexivity.
  - vm_compute. reflexivity.
  - intros n Hn Ha. simpl in Hn.
    repeat (apply elem_of_cons in Hn as [->|Hn]; [by (discriminate Ha || reflexivity)|]).
    by apply elem_of_nil in Hn.
Defined.

(** ** A result for every call *)

(** X12. When every exception that the libraries raise derives from
    [Exception], [handle_call_tool] returns a result for every name and
    every arguments, absent ones too: nothing is raised to the caller. *)
Theorem handle_call_tool_always_returns (lib : Library) (tool : string)
    (arguments : option (gmap string value)) (tr : trace) :
  raises_Exception_only lib →
  ∃ (r : CallToolResult) (tr' : trace),
    handle_call_tool lib tool arguments tr = (Ok r, tr').
Proof.
  intros Hlib.
  unfold handle_call_tool, try_except_Exception.
  destruct (dispatch lib tool arguments tr) as [[r|e] tr'] eqn:Hd; [by eexists _, _|].
  assert (He : is_Exception e = true); [|rewrite He; by eexists _, _].
  unfold dispatch in Hd.
  destruct (String.eqb tool "fetch_url");
    [|destruct (String.eqb tool "extract_links");
      [|destruct (String.eqb tool "extract_text");
        [|by injection Hd as <- _]]].
  - destruct (or_empty arguments !! "url") as [url|] eqn:Hu.
    + eapply Hlib, fetch_url_Raise; [by rewrite Hu | exact Hd].
    + unfold fetch_url in Hd. erewrite bind_Raise in Hd by (by apply getitem_None).
      by injection Hd as <- _.
  - destruct (or_empty arguments !! "url") as [url|] eqn:Hu.
    + eapply Hlib, extract_links_Raise; [by rewrite Hu | exact Hd].
    + unfold extract_links in Hd. erewrite bind_Raise in Hd by (by apply getitem_None).
      by injection Hd as <- _.
  - destruct (or_empty arguments !! "html") as [html|] eqn:Hu.
    + eapply Hlib, extract_text_Raise; [by rewrite Hu | exact Hd].
    + unfold extract_text in Hd. erewrite bind_Raise in Hd by (by apply getitem_None).
      by injection Hd as <- _.
Qed.

Lemma site_raises_Exception_only : raises_Exception_only Site.library.
Proof.
  intros e [[t H]|[(t & url & H)|[[response H]|[[markup H]|[(soup & sel & H)|(base & url & H)]]]]];
    simpl in H.
  - discriminate H.
  - unfold Site.serve in H. destruct url; try (by injection H as <-).
    repeat (destruct (String.eqb _ _); [discriminate H|]). by injection H as <-.
  - unfold Site.check_status in H. destruct (_ && _); [discriminate H|].
    by injection H as <-.
  - unfold Site.parse in H. destruct markup; try (by injection H as <-).
    repeat (destruct (String.eqb _ _); [discriminate H|]). discriminate H.
  - unfold Site.select_by_name in H. destruct sel; try (by injection H as <-).
    discriminate H.
  - unfold Site.join_root in H. destruct base; try (by injection H as <-).
    destruct (String.prefix _ _); discriminate H.
Qed.

Lemma handle_call_tool_always_returns_witness :
  ∃ (r : CallToolResult) (tr' : trace),
    handle_call_tool Site.library "fetch_url"
      (Some {[ "url" := VList [] ]}) [] = (Ok r, tr').
Proof.
  apply (handle_call_tool_always_returns Site.library "fetch_url"
           (Some {[ "url" := VList [] ]}) []).
  exact site_raises_Exception_only.
Defined.
